(** * The note route: loader, delete action, view and page metadata

    A shallow embedding of
    [app/routes/users+/$username_+/notes.$noteId.tsx]
    (exercise 07.permissions / 04.problem.utils).

    The route talks to the database through Prisma, to the session through
    [getUserId] / [requireUserId] and to the submitted form through conform's
    [parse].  The database is an explicit [Store]; every Prisma call is
    recorded in a log of issued queries, so that statements such as
    "no delete is issued" can be read off the final state. *)

From Stdlib Require Import Ascii String List ZArith Bool Lia.
From stdpp Require Import base option gmap strings list fin_maps.
Import ListNotations.

Local Open Scope string_scope.
Local Open Scope list_scope.

(** JavaScript's string concatenation (also behind template literals). *)
Notation "a ^^ b" := (String.append a b) (at level 60, right associativity).

(** ** Data model (the rows the route selects) *)

Record User := {
  user_id : string;
  username : string;
  name : option string;
}.

(** A role, with the users that hold it (relation [Role.users]). *)
Record Role := {
  role_id : string;
  users : list User;
}.

(** A permission row [(entity, action, access)] with the roles that grant it
    (relation [Permission.roles]). *)
Record Permission := {
  perm_id : string;
  entity : string;
  perm_action : string;
  access : string;
  roles : list Role;
}.

Record NoteImage := {
  image_id : string;
  altText : option string;
}.

(** A note row; its primary key is the key of the [notes] table.  The
    required relation [owner] is kept inside the row, [ownerId] being the
    scalar column that points at it. *)
Record Note := {
  title : string;
  content : string;
  owner : User;
  updatedAt : Z;
  images : list NoteImage;
}.

Definition ownerId (n : Note) : string := user_id (owner n).

(** The database: notes by primary key, permissions in table order
    ([findFirst] returns the first match). *)
Record Store := {
  notes : gmap string Note;
  permissions : list Permission;
}.

(** ** Prisma queries *)

(** A scalar filter of a [where] clause: a plain value, or [{ in: [...] }]. *)
Inductive StringFilter :=
| Equals (s : string)
| InList (l : list string).

(** [where] clause of [prisma.permission.findFirst] as the route writes it:
    [roles: { some: { users: { some: { id } } } }, entity, action, access]. *)
Record PermissionWhere := {
  where_user : string;
  where_entity : string;
  where_action : string;
  where_access : StringFilter;
}.

Inductive Query :=
| NoteFindUnique (id : string)
| NoteFindFirst (id : string)
| PermissionFindFirst (w : PermissionWhere)
| NoteDelete (id : string).

Definition is_delete (q : Query) : bool :=
  match q with NoteDelete _ => true | _ => false end.

Definition is_permission_query (q : Query) : bool :=
  match q with PermissionFindFirst _ => true | _ => false end.

(** ** Form submissions (conform + zod) *)

(** A value of the parsed form payload: a string, or anything else (a file,
    a repeated field, a nested object). *)
Inductive FieldValue :=
| FString (s : string)
| FOther.

Inductive ZodIssue :=
| invalid_literal
| invalid_type.

(** The output type of [DeleteFormSchema]. *)
Record DeleteForm := {
  form_intent : string;
  noteId : string;
}.

(** conform's [Submission]: the intent of the submission (["submit"] unless a
    validate or list command was sent), the payload, the errors by field
    and, when the schema accepted the payload, the parsed value. *)
Record Submission := {
  intent : string;
  payload : gmap string FieldValue;
  error : list (string * list ZodIssue);
  value : option DeleteForm;
}.

(** [z.literal(expected)] *)
Definition z_literal (expected : string) (v : option FieldValue)
  : string + ZodIssue :=
  match v with
  | Some (FString s) => if String.eqb s expected then inl s else inr invalid_literal
  | _ => inr invalid_literal
  end.

(** [z.string()] *)
Definition z_string (v : option FieldValue) : string + ZodIssue :=
  match v with
  | Some (FString s) => inl s
  | _ => inr invalid_type
  end.

Definition issue_at {A} (path : string) (r : A + ZodIssue)
  : list (string * list ZodIssue) :=
  match r with
  | inl _ => []
  | inr i => [(path, [i])]
  end.

(** [const DeleteFormSchema = z.object({ intent: z.literal('delete-note'),
    noteId: z.string() })], run with [safeParse]: the parsed object, or the
    issues in key order. *)
Definition DeleteFormSchema (p : gmap string FieldValue)
  : DeleteForm + list (string * list ZodIssue) :=
  match z_literal "delete-note" (p !! "intent"), z_string (p !! "noteId") with
  | inl i, inl n => inl {| form_intent := i; noteId := n |}
  | ri, rn => inr (issue_at "intent" ri ++ issue_at "noteId" rn)
  end.

(** ** Responses *)

(** The note as the loader selects it. *)
Record LoaderNote := {
  ln_id : string;
  ln_title : string;
  ln_content : string;
  ln_ownerId : string;
  ln_updatedAt : Z;
  ln_images : list NoteImage;
}.

Record LoaderData := {
  note : LoaderNote;
  timeAgo : string;
  canDelete : bool;
}.

(** The note as the action selects it:
    [{ id, ownerId, owner: { username } }]. *)
Record ActionNote := {
  an_id : string;
  an_ownerId : string;
  an_owner_username : string;
}.

Inductive Body :=
| LoaderJson (d : LoaderData)
| ActionJson (status : string) (submission : Submission)
| ErrorJson (error message : string)
| TextBody (s : string)
| NoBody.

Record Response := {
  status : nat;
  location : option string;
  body : Body;
}.

(** Remix's [json(data, { status })] and [redirect(url)]. *)
Definition json (data : Body) (st : nat) : Response :=
  {| status := st; location := None; body := data |}.

Definition redirect (url : string) : Response :=
  {| status := 302; location := Some url; body := NoBody |}.

(** ** Effects: the store, the query log, thrown responses *)

Inductive Outcome (A : Type) :=
| Return (a : A)
| Throw (r : Response)
| Raise (e : string).
Arguments Return {A} a.
Arguments Throw {A} r.
Arguments Raise {A} e.

Record World := {
  db : Store;
  issued : list Query;
}.

Definition Async (A : Type) : Type := World -> Outcome A * World.

#[global] Instance Async_ret : MRet Async := fun A a w => (Return a, w).

#[global] Instance Async_bind : MBind Async := fun A B k m w =>
  match m w with
  | (Return a, w') => k a w'
  | (Throw r, w') => (Throw r, w')
  | (Raise e, w') => (Raise e, w')
  end.

Definition throw {A} (r : Response) : Async A := fun w => (Throw r, w).

Definition lift {A} (o : Outcome A) : Async A := fun w => (o, w).

Definition record (q : Query) (w : World) : World :=
  {| db := db w; issued := issued w ++ [q] |}.

(** The queries a computation added to the log. *)
Definition issued_since (w w' : World) : list Query :=
  drop (length (issued w)) (issued w').

(** [prisma.note.findUnique({ where: { id }, select: { id, title, content,
    ownerId, updatedAt, images: { select: { id, altText } } } })] *)
Definition note_findUnique (id : string) : Async (option LoaderNote) := fun w =>
  (Return ((fun n => {| ln_id := id; ln_title := title n; ln_content := content n;
                        ln_ownerId := ownerId n; ln_updatedAt := updatedAt n;
                        ln_images := images n |}) <$> notes (db w) !! id),
   record (NoteFindUnique id) w).

(** [prisma.note.findFirst({ select: { id, ownerId, owner: { select:
    { username } } }, where: { id } })] *)
Definition note_findFirst (id : string) : Async (option ActionNote) := fun w =>
  (Return ((fun n => {| an_id := id; an_ownerId := ownerId n;
                        an_owner_username := username (owner n) |})
             <$> notes (db w) !! id),
   record (NoteFindFirst id) w).

Definition filter_matches (f : StringFilter) (s : string) : bool :=
  match f with
  | Equals v => String.eqb s v
  | InList l => existsb (String.eqb s) l
  end.

Definition permission_matches (q : PermissionWhere) (p : Permission) : bool :=
  existsb (fun r => existsb (fun u => String.eqb (user_id u) (where_user q)) (users r))
          (roles p)
  && String.eqb (entity p) (where_entity q)
  && String.eqb (perm_action p) (where_action q)
  && filter_matches (where_access q) (access p).

(** [prisma.permission.findFirst({ select: { id: true }, where })] *)
Definition permission_findFirst (q : PermissionWhere) : Async (option string) :=
  fun w =>
    (Return (perm_id <$> find (permission_matches q) (permissions (db w))),
     record (PermissionFindFirst q) w).

(** [prisma.note.delete({ where: { id } })]; Prisma raises when no row has
    the key. *)
Definition note_delete (id : string) : Async unit := fun w =>
  match notes (db w) !! id with
  | Some _ =>
      (Return tt,
       record (NoteDelete id)
         {| db := {| notes := delete id (notes (db w));
                     permissions := permissions (db w) |};
            issued := issued w |})
  | None => (Raise "Record to delete does not exist.", record (NoteDelete id) w)
  end.

(** Modelled from the spec: [invariantResponse] of [~/utils/misc.tsx] is not
    among the sources; the spec has it fail "with a not-found condition (HTTP
    404) if absent": a falsy condition throws a response with the message as
    body and the given status. *)
Definition invariantResponse {A} (condition : option A) (message : string)
    (st : nat) : Async A :=
  match condition with
  | Some a => mret a
  | None => throw {| status := st; location := None; body := TextBody message |}
  end.

(** JavaScript's [Boolean(x)] on a nullable object. *)
Definition Boolean {A} (x : option A) : bool :=
  match x with Some _ => true | None => false end.

(** ** The collaborators of the route *)

(** What the route imports and this file does not define: the session
    accessors of [~/utils/auth.server.ts] ("a session/identity accessor
    returning an optional user id; a session-requiring accessor that
    throws/redirects when absent"), the front end of conform's [parse] (the
    intent and the payload read from [request.formData()]), date-fns's
    [formatDistanceToNow] and the image URL resolver. *)
Class RouteEnv := {
  Request : Type;
  getUserId : Request -> option string;
  requireUserId : Request -> Outcome string;
  submissionIntent : Request -> string;
  submissionPayload : Request -> gmap string FieldValue;
  formatDistanceToNow : Z -> string;
  getNoteImgSrc : string -> string;
}.

Record Params := {
  params_username : string;
  params_noteId : string;
}.

Record DataFunctionArgs `{RouteEnv} := {
  request : Request;
  params : Params;
}.

Section Route.
Context `{RouteEnv}.

(** [parse(formData, { schema: DeleteFormSchema, acceptMultipleErrors })] *)
Definition parse (req : Request) : Submission :=
  let p := submissionPayload req in
  match DeleteFormSchema p with
  | inl v => {| intent := submissionIntent req; payload := p;
                error := []; value := Some v |}
  | inr e => {| intent := submissionIntent req; payload := p;
                error := e; value := None |}
  end.

(** [export async function loader({ request, params })] *)
Definition loader (args : DataFunctionArgs) : Async Response :=
  let userId := getUserId (request args) in
  note ← note_findUnique (params_noteId (params args));
  note ← invariantResponse note "Not found" 404;
  let timeAgo := formatDistanceToNow (ln_updatedAt note) in
  permission ←
    match userId with
    | Some userId =>
        if String.eqb userId "" then mret None
        else permission_findFirst
               {| where_user := userId;
                  where_entity := "note";
                  where_action := "delete";
                  where_access :=
                    if String.eqb (ln_ownerId note) userId
                    then InList ["any"; "own"] else Equals "any" |}
    | None => mret None
    end;
  mret (json (LoaderJson {| note := note; timeAgo := timeAgo;
                            canDelete := Boolean permission |}) 200).

Definition unauthorized : Response :=
  json (ErrorJson "Unauthorized" "Unauthorized: requires permission delete:note") 403.

(** [export async function action({ request })] *)
Definition action (args : DataFunctionArgs) : Async Response :=
  userId ← lift (requireUserId (request args));
  let submission := parse (request args) in
  if negb (String.eqb (intent submission) "submit") then
    mret (json (ActionJson "idle" submission) 200)
  else
    match value submission with
    | None => mret (json (ActionJson "error" submission) 400)
    | Some v =>
        let noteId := noteId v in
        note ← note_findFirst noteId;
        note ← invariantResponse note "Not found" 404;
        permission ← permission_findFirst
               {| where_user := userId;
                  where_entity := "note";
                  where_action := "delete";
                  where_access :=
                    if String.eqb (an_ownerId note) userId
                    then InList ["any"; "own"] else Equals "any" |};
        _ ← (if negb (Boolean permission) then throw unauthorized else mret tt);
        _ ← note_delete (an_id note);
        mret (redirect ("/users/" ^^ an_owner_username note ^^ "/notes"))
    end.

(** The form [<DeleteNote id />] renders: a hidden [noteId] input and a
    submit button named [intent] with value [delete-note]. *)
Record DeleteNoteForm := {
  form_id : string;
  hidden_noteId : string;
  button_name : string;
  button_value : string;
}.

(** [export function DeleteNote({ id })] *)
Definition DeleteNote (id : string) : DeleteNoteForm :=
  {| form_id := "delete-note"; hidden_noteId := id;
     button_name := "intent"; button_value := "delete-note" |}.

Inductive ToolbarItem :=
| TimeAgoLabel (label : string)
| DeleteControl (f : DeleteNoteForm)
| EditLink (to : string).

Record Thumbnail := {
  href : string;
  src : string;
  alt : string;
}.

(** What [NoteRoute] renders: the heading, the scrolling block (its class,
    the thumbnails, the content paragraph) and the floating toolbar, when
    there is one. *)
Record NoteView := {
  heading : string;
  scroll_class : string;
  thumbnails : list Thumbnail;
  paragraph : string;
  toolbar : option (list ToolbarItem);
}.

(** [export default function NoteRoute()], with the values of
    [useLoaderData] and [useOptionalUser] as arguments. *)
Definition NoteRoute (data : LoaderData) (user : option User) : NoteView :=
  let isOwner :=
    match user with
    | Some u => String.eqb (user_id u) (ln_ownerId (note data))
    | None => false
    end in
  let canDelete := canDelete data in
  let displayBar := canDelete || isOwner in
  {| heading := ln_title (note data);
     scroll_class := (if displayBar then "pb-24" else "pb-12") ^^ " overflow-y-auto";
     thumbnails :=
       map (fun image => {| href := getNoteImgSrc (image_id image);
                            src := getNoteImgSrc (image_id image);
                            alt := default "" (altText image) |})
           (ln_images (note data));
     paragraph := ln_content (note data);
     toolbar :=
       if displayBar then
         Some ([TimeAgoLabel (timeAgo data ^^ " ago")]
               ++ (if canDelete then [DeleteControl (DeleteNote (ln_id (note data)))]
                   else [])
               ++ [EditLink "edit"])
       else None |}.

(** The data of the parent route [./notes.tsx] that [meta] reads:
    [owner.name], which may be null. *)
Record NotesLoaderData := {
  notes_owner_name : option string;
}.

Record RouteMatch := {
  match_id : string;
  match_data : option NotesLoaderData;
}.

Inductive MetaDescriptor :=
| MetaTitle (t : string)
| MetaName (name content : string).

(** [export const meta = ({ data, params, matches }) => ...]; a string's
    [length] and [slice] count its characters. *)
Definition meta (data : option LoaderData) (params : Params)
    (matches : list RouteMatch) : list MetaDescriptor :=
  let notesMatch :=
    find (fun m => String.eqb (match_id m) "routes/users+/$username_+/notes") matches in
  let displayName :=
    match notesMatch with
    | Some {| match_data := Some {| notes_owner_name := Some n |} |} => n
    | _ => params_username params
    end in
  let noteTitle :=
    match data with
    | Some d => ln_title (note d)
    | None => "Note"
    end in
  let noteContentsSummary :=
    match data with
    | Some d =>
        if (100 <? String.length (ln_content (note d)))%nat
        then substring 0 97 (ln_content (note d)) ^^ "..."
        else "No content"
    | None => "No content"
    end in
  [ MetaTitle (noteTitle ^^ " | " ^^ displayName ^^ "'s Notes | Epic Notes");
    MetaName "description" noteContentsSummary ].

(** [statusHandlers] of [export function ErrorBoundary()]: the text shown
    for a response of the given status, when the route has a handler for
    it. *)
Definition statusHandlers (st : nat) : option (Params -> string) :=
  if (st =? 403)%nat then Some (fun _ => "You are not allowed to do that")
  else if (st =? 404)%nat then
    Some (fun params =>
            "No note with the id " ^^ String "034"%char (params_noteId params)
              ^^ String "034"%char " exists")
  else None.

End Route.

(** ** The delete permission as the specification words it *)

(** The user holds the permission through some role. *)
Definition held_through_role (uid : string) (p : Permission) : Prop :=
  exists r u, In r (roles p) /\ In u (users r) /\ user_id u = uid.

(** "exists permission p such that p.entity == note and p.action == delete and
    (p.access == any or (p.access == own and note.owner == requesting_user))" *)
Definition can_delete (s : Store) (uid : string) (owner_id : string) : Prop :=
  exists p, In p (permissions s)
    /\ entity p = "note" /\ perm_action p = "delete"
    /\ held_through_role uid p
    /\ (access p = "any" \/ (access p = "own" /\ uid = owner_id)).

(** The [where] clause that both handlers build for the user [uid] and a
    note owned by [owner_id]. *)
Definition delete_where (uid owner_id : string) : PermissionWhere :=
  {| where_user := uid;
     where_entity := "note";
     where_action := "delete";
     where_access :=
       if String.eqb owner_id uid then InList ["any"; "own"] else Equals "any" |}.

(** The response [invariantResponse(note, 'Not found', { status: 404 })]
    throws. *)
Definition not_found : Response :=
  {| status := 404; location := None; body := TextBody "Not found" |}.

(** A delete form that passes validation and names the note [id]. *)
Definition valid_delete_submission `{RouteEnv} (req : Request) (id : string) : Prop :=
  submissionIntent req = "submit"
  /\ submissionPayload req !! "intent" = Some (FString "delete-note")
  /\ submissionPayload req !! "noteId" = Some (FString id).

(** What the client receives: a thrown response is sent like a returned
    one; an exception that is not a response is not. *)
Definition response_of (o : Outcome Response) : option Response :=
  match o with
  | Return r | Throw r => Some r
  | Raise _ => None
  end.

(** [user?.id === data.note.ownerId] *)
Definition viewer_is_owner (user : option User) (data : LoaderData) : bool :=
  match user with
  | Some u => String.eqb (user_id u) (ln_ownerId (note data))
  | None => false
  end.

Definition is_delete_control (i : ToolbarItem) : bool :=
  match i with DeleteControl _ => true | _ => false end.

Definition is_edit_control (i : ToolbarItem) : bool :=
  match i with EditLink _ => true | _ => false end.

Definition bar_shown (v : NoteView) : bool := Boolean (toolbar v).

Definition delete_shown (v : NoteView) : bool :=
  match toolbar v with
  | Some items => existsb is_delete_control items
  | None => false
  end.

Definition edit_shown (v : NoteView) : bool :=
  match toolbar v with
  | Some items => existsb is_edit_control items
  | None => false
  end.

(** The content of the [description] entry of a page's metadata. *)
Fixpoint description (m : list MetaDescriptor) : option string :=
  match m with
  | [] => None
  | MetaName n c :: rest => if String.eqb n "description" then Some c else description rest
  | _ :: rest => description rest
  end.

(** What the browser posts when the button of the form is pressed: the
    hidden [noteId] input and the name and value of the submit button. *)
Definition form_payload (f : DeleteNoteForm) : gmap string FieldValue :=
  <[button_name f := FString (button_value f)]>
    (<["noteId" := FString (hidden_noteId f)]> ∅).

(** The controls of the page, the empty list when there is no bar. *)
Definition controls (v : NoteView) : list ToolbarItem :=
  match toolbar v with
  | Some items => items
  | None => []
  end.

(** ** A small installation, used to run the route on concrete requests *)

Module Demo.

Record Req := {
  session : option string;
  sent_intent : string;
  sent_payload : gmap string FieldValue;
}.

Definition env : RouteEnv :=
  {| Request := Req;
     getUserId := session;
     requireUserId := fun r =>
       match session r with
       | Some u => Return u
       | None => Throw (redirect "/login")
       end;
     submissionIntent := sent_intent;
     submissionPayload := sent_payload;
     formatDistanceToNow := fun _ => "2 days";
     getNoteImgSrc := fun id => "/resources/note-images/" ^^ id |}.

Definition kody : User := {| user_id := "u-kody"; username := "kody"; name := Some "Kody" |}.
Definition hannah : User := {| user_id := "u-hannah"; username := "hannah"; name := None |}.
Definition root : User := {| user_id := "u-root"; username := "root"; name := Some "Root" |}.

Definition user_role : Role := {| role_id := "r-user"; users := [kody] |}.
Definition admin_role : Role := {| role_id := "r-admin"; users := [root] |}.

Definition delete_own : Permission :=
  {| perm_id := "p-1"; entity := "note"; perm_action := "delete"; access := "own";
     roles := [user_role] |}.
Definition delete_any : Permission :=
  {| perm_id := "p-2"; entity := "note"; perm_action := "delete"; access := "any";
     roles := [admin_role] |}.
Definition update_any : Permission :=
  {| perm_id := "p-3"; entity := "note"; perm_action := "update"; access := "any";
     roles := [user_role; admin_role] |}.

Definition kody_note : Note :=
  {| title := "Koalas"; content := "Koalas sleep a lot."; owner := kody;
     updatedAt := 1700000000; images := [{| image_id := "i-1"; altText := None |}] |}.
Definition hannah_note : Note :=
  {| title := "Tea"; content := "Green."; owner := hannah;
     updatedAt := 1700000500; images := [] |}.

Definition store : Store :=
  {| notes := <["n-kody" := kody_note]> (<["n-hannah" := hannah_note]> ∅);
     permissions := [update_any; delete_own; delete_any] |}.

Definition world : World := {| db := store; issued := [] |}.

Definition delete_payload (id : string) : gmap string FieldValue :=
  <["intent" := FString "delete-note"]> (<["noteId" := FString id]> ∅).

(** A POST that asks to delete [id], sent by [who], on the page of [page]. *)
Definition delete_request (who : option string) (id page : string)
  : @DataFunctionArgs env :=
  {| request := {| session := who; sent_intent := "submit";
                   sent_payload := delete_payload id |} : @Request env;
     params := {| params_username := "kody"; params_noteId := page |} |}.

(** A GET of the page of note [id] by [who]. *)
Definition view_request (who : option string) (id : string)
  : @DataFunctionArgs env :=
  {| request := {| session := who; sent_intent := "submit"; sent_payload := ∅ |}
                : @Request env;
     params := {| params_username := "kody"; params_noteId := id |} |}.

(** A validation round trip of conform: the intent is not "submit". *)
Definition validate_request : @DataFunctionArgs env :=
  {| request := {| session := Some "u-kody"; sent_intent := "validate/noteId";
                   sent_payload := delete_payload "n-kody" |} : @Request env;
     params := {| params_username := "kody"; params_noteId := "n-kody" |} |}.

(** A submit without the [noteId] field. *)
Definition missing_noteId_request : @DataFunctionArgs env :=
  {| request := {| session := Some "u-kody"; sent_intent := "submit";
                   sent_payload := <["intent" := FString "delete-note"]> ∅ |}
                : @Request env;
     params := {| params_username := "kody"; params_noteId := "n-kody" |} |}.

(** A submit whose [intent] field is not the literal of the schema. *)
Definition wrong_intent_request : @DataFunctionArgs env :=
  {| request := {| session := Some "u-kody"; sent_intent := "submit";
                   sent_payload :=
                     <["intent" := FString "edit-note"]>
                       (<["noteId" := FString "n-kody"]> ∅) |}
                : @Request env;
     params := {| params_username := "kody"; params_noteId := "n-kody" |} |}.

(** The same installation before the "own" permission was granted. *)
Definition store_without_own : Store :=
  {| notes := notes store; permissions := [update_any; delete_any] |}.

(** The page data of Kody's note for a viewer who may not delete it. *)
Definition kody_page : LoaderData :=
  {| note := {| ln_id := "n-kody"; ln_title := "Koalas";
                ln_content := "Koalas sleep a lot."; ln_ownerId := "u-kody";
                ln_updatedAt := 1700000000;
                ln_images := [{| image_id := "i-1"; altText := None |}] |};
     timeAgo := "2 days";
     canDelete := false |}.

Definition long_page : LoaderData :=
  {| note := {| ln_id := "n-long"; ln_title := "Digits";
                ln_content :=
  "0123456789012345678901234567890123456789012345678901234567890123456789012345678901234567890123456789!";
                ln_ownerId := "u-kody"; ln_updatedAt := 1700000000;
                ln_images := [] |};
     timeAgo := "2 days";
     canDelete := false |}.

(** Kody presses the delete button of the page of his note. *)
Definition press_delete (who : option string) (id : string)
  : @DataFunctionArgs env :=
  {| request := {| session := who; sent_intent := "submit";
                   sent_payload := form_payload (DeleteNote id) |} : @Request env;
     params := {| params_username := "kody"; params_noteId := id |} |}.

(** A form with a field the schema does not know. *)
Definition extra_field_payload : gmap string FieldValue :=
  <["redirectTo" := FString "/"]> (delete_payload "n-kody").

(** The permission table in another order, and with one more row. *)
Definition store_shuffled : Store :=
  {| notes := notes store; permissions := [delete_any; update_any; delete_own] |}.

Definition store_more_rows : Store :=
  {| notes := notes store_without_own;
     permissions := delete_own :: permissions store_without_own |}.

Definition notes_match : RouteMatch :=
  {| match_id := "routes/users+/$username_+/notes";
     match_data := Some {| notes_owner_name := Some "Kody" |} |}.

Definition root_match : RouteMatch :=
  {| match_id := "root"; match_data := None |}.

End Demo.


(** * Properties *)

(** ** Reading the permission query *)

Lemma existsb_eqb_In (s : string) (l : list string) :
  existsb (String.eqb s) l = true <-> In s l.
Proof.
  rewrite existsb_exists. split.
  - intros (x & Hx & Heq). apply String.eqb_eq in Heq. now subst.
  - intros Hin. exists s. split; [assumption | apply String.eqb_refl].
Qed.

Lemma held_through_role_existsb (uid : string) (p : Permission) :
  existsb (fun r => existsb (fun u => String.eqb (user_id u) uid) (users r)) (roles p)
    = true
  <-> held_through_role uid p.
Proof.
  unfold held_through_role. rewrite existsb_exists. split.
  - intros (r & Hr & Hu). apply existsb_exists in Hu as (u & Hu & Heq).
    apply String.eqb_eq in Heq. eauto.
  - intros (r & u & Hr & Hu & Heq). exists r. split; [assumption |].
    apply existsb_exists. exists u. split; [assumption |].
    now apply String.eqb_eq.
Qed.

Lemma delete_where_matches (uid owner_id : string) (p : Permission) :
  permission_matches (delete_where uid owner_id) p = true
  <-> entity p = "note" /\ perm_action p = "delete"
      /\ held_through_role uid p
      /\ (access p = "any" \/ (access p = "own" /\ uid = owner_id)).
Proof.
  unfold permission_matches, delete_where; cbn [where_user where_entity where_action where_access].
  rewrite !andb_true_iff, held_through_role_existsb, !String.eqb_eq.
  destruct (String.eqb_spec owner_id uid) as [-> | Hne]; cbn [filter_matches].
  - rewrite existsb_eqb_In. cbn [In]. intuition congruence.
  - rewrite String.eqb_eq. intuition congruence.
Qed.

Lemma Boolean_find {A B} (f : A -> bool) (g : A -> B) (l : list A) :
  Boolean (g <$> find f l) = true <-> exists x, In x l /\ f x = true.
Proof.
  destruct (find f l) as [x |] eqn:Hfind; cbn.
  - apply find_some in Hfind. split; eauto.
  - split; [discriminate |]. intros (x & Hin & Hx).
    pose proof (find_none f l Hfind x Hin). congruence.
Qed.

(** The query of the two handlers finds a row exactly when the user may
    delete the note, in the words of the specification. *)
Lemma gate_iff (s : Store) (uid owner_id : string) :
  Boolean (perm_id <$> find (permission_matches (delete_where uid owner_id))
                            (permissions s)) = true
  <-> can_delete s uid owner_id.
Proof.
  rewrite Boolean_find. unfold can_delete.
  split; intros (p & Hin & Hp); exists p; split; try assumption;
    now apply delete_where_matches.
Qed.

Lemma issued_since_app (w w' : World) (qs : list Query) :
  issued w' = issued w ++ qs -> issued_since w w' = qs.
Proof.
  intros Heq. unfold issued_since. rewrite Heq. apply drop_app_length.
Qed.

Lemma schema_accepts (p : gmap string FieldValue) (id : string) :
  p !! "intent" = Some (FString "delete-note") ->
  p !! "noteId" = Some (FString id) ->
  DeleteFormSchema p = inl {| form_intent := "delete-note"; noteId := id |}.
Proof.
  intros Hi Hn. unfold DeleteFormSchema. now rewrite Hi, Hn.
Qed.

Lemma schema_accepted_inv (p : gmap string FieldValue) (v : DeleteForm) :
  DeleteFormSchema p = inl v ->
  p !! "intent" = Some (FString "delete-note")
  /\ p !! "noteId" = Some (FString (noteId v)).
Proof.
  unfold DeleteFormSchema, z_literal, z_string.
  destruct (p !! "intent") as [[s |] |]; destruct (p !! "noteId") as [[t |] |];
    try discriminate;
    destruct (String.eqb_spec s "delete-note") as [-> | Hs]; try discriminate.
  intros [= <-]. split; reflexivity.
Qed.

Lemma schema_rejects_nonempty (p : gmap string FieldValue)
    (e : list (string * list ZodIssue)) :
  DeleteFormSchema p = inr e -> e <> [].
Proof.
  unfold DeleteFormSchema.
  destruct (z_literal _ _), (z_string _); intros [= <-]; discriminate.
Qed.

(** The first [n] characters of a string that has at least [n]. *)
Lemma substring_prefix (n : nat) (s : string) :
  n <= String.length s ->
  exists rest, s = substring 0 n s ^^ rest /\ String.length (substring 0 n s) = n.
Proof.
  revert s. induction n as [| n IH]; intros s Hlen.
  - exists s. destruct s; split; reflexivity.
  - destruct s as [| c s]; cbn in Hlen; [lia |].
    destruct (IH s) as (rest & Heq & Hl); [lia |].
    exists rest. cbn [substring String.append String.length].
    split; [| congruence].
    change (String c s = String c (substring 0 n s ^^ rest)). congruence.
Qed.

Section Handlers.
Context `{RouteEnv}.

Lemma parse_intent (req : Request) : intent (parse req) = submissionIntent req.
Proof. unfold parse. now destruct (DeleteFormSchema _). Qed.

Lemma parse_value_None (req : Request) :
  value (parse req) = None ->
  exists e, DeleteFormSchema (submissionPayload req) = inr e /\ error (parse req) = e.
Proof.
  unfold parse. destruct (DeleteFormSchema _) as [v | e]; cbn; [discriminate |].
  intros _. now exists e.
Qed.

(** The action when the submission is not a plain submit. *)
Lemma action_idle (args : DataFunctionArgs) (w : World) (uid : string) :
  requireUserId (request args) = Return uid ->
  submissionIntent (request args) <> "submit" ->
  action args w = (Return (json (ActionJson "idle" (parse (request args))) 200), w).
Proof.
  intros Hu Hi. unfold action, mbind, Async_bind, lift. rewrite Hu, parse_intent.
  destruct (String.eqb_spec (submissionIntent (request args)) "submit");
    [contradiction | reflexivity].
Qed.

(** The action when the schema rejects the payload. *)
Lemma action_invalid (args : DataFunctionArgs) (w : World) (uid : string) :
  requireUserId (request args) = Return uid ->
  submissionIntent (request args) = "submit" ->
  value (parse (request args)) = None ->
  action args w = (Return (json (ActionJson "error" (parse (request args))) 400), w).
Proof.
  intros Hu Hi Hv. unfold action, mbind, Async_bind, lift.
  rewrite Hu, parse_intent, Hi, Hv. reflexivity.
Qed.

(** A submission the action lets through is a valid delete form. *)
Lemma parse_value_Some (req : Request) (v : DeleteForm) :
  submissionIntent req = "submit" ->
  value (parse req) = Some v ->
  valid_delete_submission req (noteId v).
Proof.
  unfold parse. intros Hi.
  destruct (DeleteFormSchema _) as [v' | e] eqn:Hs; cbn; [| discriminate].
  intros [= ->]. apply schema_accepted_inv in Hs as [? ?].
  repeat split; assumption.
Qed.

(** The loader on a request for an existing note. *)
Lemma loader_run (args : DataFunctionArgs) (w : World) (n : Note) :
  notes (db w) !! params_noteId (params args) = Some n ->
  let id := params_noteId (params args) in
  let ln := {| ln_id := id; ln_title := title n; ln_content := content n;
               ln_ownerId := ownerId n; ln_updatedAt := updatedAt n;
               ln_images := images n |} in
  let w1 := record (NoteFindUnique id) w in
  loader args w =
    match getUserId (request args) with
    | Some uid =>
        if String.eqb uid "" then
          (Return (json (LoaderJson {| note := ln;
                                       timeAgo := formatDistanceToNow (updatedAt n);
                                       canDelete := false |}) 200), w1)
        else
          (Return (json (LoaderJson
                     {| note := ln;
                        timeAgo := formatDistanceToNow (updatedAt n);
                        canDelete :=
                          Boolean (perm_id <$> find (permission_matches
                                                       (delete_where uid (ownerId n)))
                                                    (permissions (db w))) |}) 200),
           record (PermissionFindFirst (delete_where uid (ownerId n))) w1)
    | None =>
        (Return (json (LoaderJson {| note := ln;
                                     timeAgo := formatDistanceToNow (updatedAt n);
                                     canDelete := false |}) 200), w1)
    end.
Proof.
  intros Hn. cbv zeta.
  unfold loader, mbind, Async_bind, note_findUnique. rewrite Hn. cbn.
  destruct (getUserId (request args)) as [uid |]; [| reflexivity].
  destruct (String.eqb uid ""); reflexivity.
Qed.

(** The loader on a request for a note that is not there. *)
Lemma loader_missing (args : DataFunctionArgs) (w : World) :
  notes (db w) !! params_noteId (params args) = None ->
  loader args w = (Throw not_found, record (NoteFindUnique (params_noteId (params args))) w).
Proof.
  intros Hn. unfold loader, mbind, Async_bind, note_findUnique. rewrite Hn.
  reflexivity.
Qed.

(** The action on a valid delete form sent by a signed-in user. *)
Lemma action_run (args : DataFunctionArgs) (w : World) (uid id : string) :
  requireUserId (request args) = Return uid ->
  valid_delete_submission (request args) id ->
  action args w =
    match notes (db w) !! id with
    | None => (Throw not_found, record (NoteFindFirst id) w)
    | Some n =>
        let q := delete_where uid (ownerId n) in
        let w1 := record (PermissionFindFirst q) (record (NoteFindFirst id) w) in
        if Boolean (perm_id <$> find (permission_matches q) (permissions (db w)))
        then (Return (redirect ("/users/" ^^ username (owner n) ^^ "/notes")),
              record (NoteDelete id)
                {| db := {| notes := delete id (notes (db w));
                            permissions := permissions (db w) |};
                   issued := issued w1 |})
        else (Throw unauthorized, w1)
    end.
Proof.
  intros Hu (Hi & Hpi & Hpn).
  unfold action, parse, mbind, Async_bind, lift.
  rewrite Hu, Hi, (schema_accepts _ id Hpi Hpn). cbn.
  unfold note_findFirst.
  destruct (notes (db w) !! id) as [n |] eqn:Hn; cbn; [| reflexivity].
  destruct (find _ (permissions (db w))) as [p |]; cbn; [| reflexivity].
  unfold note_delete. cbn. rewrite Hn. reflexivity.
Qed.

End Handlers.

(** ** The route's guarantees *)

Section Guarantees.
Context `{RouteEnv}.

(** C1.  For a requesting user [uid] and a note [n] stored under [id]: the
    [canDelete] the loader computes for a view of that note by [uid], and the
    gate of the action on a valid delete form sent by [uid] for that note,
    hold exactly when some permission row with entity "note" and action
    "delete" is held by the user through a role and has access "any", or has
    access "own" while the user is the owner of the note.  (The loader tests
    the optional user id for truthiness, so the id is taken to be a
    non-empty string, as every generated id is.) *)
Theorem delete_permission_iff
    (view post : DataFunctionArgs) (w : World) (uid id : string) (n : Note) :
  uid <> "" ->
  notes (db w) !! id = Some n ->
  getUserId (request view) = Some uid ->
  params_noteId (params view) = id ->
  requireUserId (request post) = Return uid ->
  valid_delete_submission (request post) id ->
  (exists d w', loader view w = (Return (json (LoaderJson d) 200), w')
                /\ (canDelete d = true <-> can_delete (db w) uid (ownerId n)))
  /\ (fst (action post w)
        = Return (redirect ("/users/" ^^ username (owner n) ^^ "/notes"))
      <-> can_delete (db w) uid (ownerId n))
  /\ (fst (action post w) = Throw unauthorized
      <-> ~ can_delete (db w) uid (ownerId n)).
Proof.
  intros Hne Hn Hget Hid Hreq Hvalid. subst id.
  pose proof (gate_iff (db w) uid (ownerId n)) as Hgate.
  repeat split.
  - rewrite (loader_run view w n Hn), Hget.
    destruct (String.eqb_spec uid "") as [-> | _]; [congruence |].
    eexists _, _. split; [reflexivity |]. exact Hgate.
  - rewrite (action_run post w uid _ Hreq Hvalid), Hn. cbv zeta.
    destruct (Boolean _); cbn; intros Ho; [now apply Hgate | discriminate].
  - rewrite (action_run post w uid _ Hreq Hvalid), Hn. cbv zeta.
    intros Hc. apply Hgate in Hc. now rewrite Hc.
  - rewrite (action_run post w uid _ Hreq Hvalid), Hn. cbv zeta.
    destruct (Boolean _); cbn; intros Ho; [discriminate |].
    intros Hc. apply Hgate in Hc. discriminate.
  - rewrite (action_run post w uid _ Hreq Hvalid), Hn. cbv zeta.
    intros Hc. destruct (Boolean _); cbn; [| reflexivity].
    exfalso. apply Hc. now apply Hgate.
Qed.

(** C2.  A valid delete form whose sender lacks the delete permission for
    the targeted note is answered with the 403 response; the store is left
    as it was, the note is still there, and the only queries issued are the
    two reads: no delete reaches the store. *)
Theorem action_forbidden
    (args : DataFunctionArgs) (w : World) (uid id : string) (n : Note) :
  requireUserId (request args) = Return uid ->
  valid_delete_submission (request args) id ->
  notes (db w) !! id = Some n ->
  ~ can_delete (db w) uid (ownerId n) ->
  exists w', action args w = (Throw unauthorized, w')
    /\ status unauthorized = 403
    /\ db w' = db w
    /\ notes (db w') !! id = Some n
    /\ issued_since w w'
       = [NoteFindFirst id; PermissionFindFirst (delete_where uid (ownerId n))]
    /\ existsb is_delete (issued_since w w') = false.
Proof.
  intros Hreq Hvalid Hn Hc.
  rewrite (action_run args w uid id Hreq Hvalid), Hn. cbv zeta.
  destruct (Boolean _) eqn:Hb.
  - exfalso. apply Hc. now apply gate_iff.
  - eexists. split; [reflexivity |].
    assert (Hq : issued_since w
               (record (PermissionFindFirst (delete_where uid (ownerId n)))
                       (record (NoteFindFirst id) w))
             = [NoteFindFirst id; PermissionFindFirst (delete_where uid (ownerId n))]).
    { apply issued_since_app. cbn. now rewrite <- app_assoc. }
    rewrite Hq. repeat split; assumption.
Qed.

(** C3.  A valid delete form for an existing note, sent by a user who holds
    the permission, deletes that note (and nothing else) and redirects to
    [/users/{ownerUsername}/notes], the username being the one of the note's
    owner as read before the deletion. *)
Theorem action_deletes_and_redirects
    (args : DataFunctionArgs) (w : World) (uid id : string) (n : Note) :
  requireUserId (request args) = Return uid ->
  valid_delete_submission (request args) id ->
  notes (db w) !! id = Some n ->
  can_delete (db w) uid (ownerId n) ->
  exists w',
    action args w
      = (Return (redirect ("/users/" ^^ username (owner n) ^^ "/notes")), w')
    /\ notes (db w') = delete id (notes (db w))
    /\ notes (db w') !! id = None
    /\ (forall j, j <> id -> notes (db w') !! j = notes (db w) !! j)
    /\ permissions (db w') = permissions (db w)
    /\ issued_since w w'
       = [NoteFindFirst id; PermissionFindFirst (delete_where uid (ownerId n));
          NoteDelete id].
Proof.
  intros Hreq Hvalid Hn Hc.
  rewrite (action_run args w uid id Hreq Hvalid), Hn. cbv zeta.
  apply gate_iff in Hc. rewrite Hc.
  eexists. split; [reflexivity |]. cbn.
  repeat split.
  - apply lookup_delete_eq.
  - intros j Hj. now apply lookup_delete_ne.
  - apply issued_since_app. cbn. now rewrite <- !app_assoc.
Qed.

(** C4.  A loader request without an authenticated user issues the note
    read and nothing else, so no permission query; whenever it returns the
    page data [canDelete] is false, and it does return them when the note
    exists. *)
Theorem loader_anonymous (args : DataFunctionArgs) (w : World) :
  getUserId (request args) = None ->
  issued_since w (snd (loader args w)) = [NoteFindUnique (params_noteId (params args))]
  /\ existsb is_permission_query (issued_since w (snd (loader args w))) = false
  /\ (forall r, response_of (fst (loader args w)) = Some r ->
        forall d, body r = LoaderJson d -> canDelete d = false)
  /\ (forall n, notes (db w) !! params_noteId (params args) = Some n ->
        exists d, fst (loader args w) = Return (json (LoaderJson d) 200)
                  /\ canDelete d = false).
Proof.
  intros Hget.
  assert (Hq : issued_since w (record (NoteFindUnique (params_noteId (params args))) w)
               = [NoteFindUnique (params_noteId (params args))])
    by now apply issued_since_app.
  destruct (notes (db w) !! params_noteId (params args)) as [n |] eqn:Hn.
  - rewrite (loader_run args w n Hn), Hget. cbn [fst snd]. rewrite Hq.
    repeat split.
    + intros r [= <-] d [= <-]. reflexivity.
    + intros n' _. eexists. split; reflexivity.
  - rewrite (loader_missing args w Hn). cbn [fst snd]. rewrite Hq.
    repeat split.
    + intros r [= <-] d Hd. discriminate.
    + intros n' [=].
Qed.

(** C5.  When no note is stored under the requested id, the loader (id
    from the route) and the action (id from a valid form of a signed-in
    user) both throw the 404 response; each has issued its one read, and the
    store is unchanged. *)
Theorem missing_note_404
    (view post : DataFunctionArgs) (w : World) (uid id : string) :
  notes (db w) !! id = None ->
  params_noteId (params view) = id ->
  requireUserId (request post) = Return uid ->
  valid_delete_submission (request post) id ->
  status not_found = 404
  /\ (exists w', loader view w = (Throw not_found, w')
        /\ db w' = db w /\ issued_since w w' = [NoteFindUnique id])
  /\ (exists w', action post w = (Throw not_found, w')
        /\ db w' = db w /\ issued_since w w' = [NoteFindFirst id]).
Proof.
  intros Hn Hid Hreq Hvalid. subst id. split; [reflexivity |]. split.
  - rewrite (loader_missing view w Hn). eexists. split; [reflexivity |].
    split; [reflexivity | now apply issued_since_app].
  - rewrite (action_run post w uid _ Hreq Hvalid), Hn. eexists.
    split; [reflexivity |]. split; [reflexivity | now apply issued_since_app].
Qed.

(** C6.  For a signed-in sender: a submission whose intent is not "submit"
    is returned as parsed, with status "idle" and HTTP 200; a "submit" that
    the schema rejects is returned with status "error", HTTP 400 and a
    non-empty list of field errors; in both cases the store is untouched and
    no query is issued.  A payload without [noteId], or whose [intent] is not
    the literal "delete-note", is rejected with an error on that field. *)
Theorem action_rejects_bad_submission
    (args : DataFunctionArgs) (w : World) (uid : string) :
  requireUserId (request args) = Return uid ->
  let sub := parse (request args) in
  (intent sub <> "submit" ->
     action args w = (Return (json (ActionJson "idle" sub) 200), w))
  /\ (intent sub = "submit" -> value sub = None ->
       action args w = (Return (json (ActionJson "error" sub) 400), w)
       /\ error sub <> [])
  /\ (submissionPayload (request args) !! "noteId" = None ->
       value sub = None /\ In ("noteId", [invalid_type]) (error sub))
  /\ (submissionPayload (request args) !! "intent" <> Some (FString "delete-note") ->
       value sub = None /\ In ("intent", [invalid_literal]) (error sub)).
Proof.
  intros Hu sub. subst sub. split; [| split; [| split]].
  - rewrite parse_intent. intros Hi. now apply (action_idle args w uid).
  - rewrite parse_intent. intros Hi Hv. split.
    + now apply (action_invalid args w uid).
    + destruct (parse_value_None _ Hv) as (e & He & ->).
      now apply schema_rejects_nonempty in He.
  - intros Hn. unfold parse, DeleteFormSchema. rewrite Hn. cbn.
    destruct (z_literal _ _); cbn; auto.
  - intros Hi. unfold parse, DeleteFormSchema, z_literal.
    destruct (submissionPayload (request args) !! "intent") as [[s |] |];
      [destruct (String.eqb_spec s "delete-note") as [-> | Hs];
         [contradiction |] | |];
      destruct (z_string _); cbn; auto.
Qed.

(** C7.  Whenever the action of a signed-in sender answers with status 403,
    the response is the one thrown at the permission gate: its body is
    [{error: "Unauthorized", message}] with the fixed message
    "Unauthorized: requires permission delete:note", which is the same for
    every request and store and names neither access scope; the error
    boundary shows the fixed text "You are not allowed to do that". *)
Theorem forbidden_payload
    (args : DataFunctionArgs) (w : World) (uid : string) (r : Response) :
  requireUserId (request args) = Return uid ->
  response_of (fst (action args w)) = Some r ->
  status r = 403 ->
  r = unauthorized
  /\ body r = ErrorJson "Unauthorized" "Unauthorized: requires permission delete:note"
  /\ index 0 "own" "Unauthorized: requires permission delete:note" = None
  /\ index 0 "any" "Unauthorized: requires permission delete:note" = None
  /\ forall p, (fun h => h p) <$> statusHandlers (status r)
               = Some "You are not allowed to do that".
Proof.
  intros Hu Hr Hs.
  assert (Heq : r = unauthorized); [| subst r; repeat split; reflexivity].
  destruct (String.eqb_spec (submissionIntent (request args)) "submit") as [Hi | Hi].
  - destruct (value (parse (request args))) as [v |] eqn:Hv.
    + pose proof (parse_value_Some _ v Hi Hv) as Hvalid.
      rewrite (action_run args w uid _ Hu Hvalid) in Hr.
      destruct (notes (db w) !! noteId v) as [n |]; cbv zeta in Hr.
      * destruct (Boolean _); cbn in Hr; injection Hr as <-;
          [discriminate | reflexivity].
      * cbn in Hr. injection Hr as <-. discriminate.
    + rewrite (action_invalid args w uid Hu Hi Hv) in Hr.
      cbn in Hr. injection Hr as <-. discriminate.
  - rewrite (action_idle args w uid Hu Hi) in Hr.
    cbn in Hr. injection Hr as <-. discriminate.
Qed.

(** C8 (amended).  The floating bar is shown exactly when the loader's
    [canDelete] holds or the viewer is the owner of the note; inside the
    bar the delete control is shown exactly when [canDelete] holds, and the
    edit control whenever the bar is. *)
Theorem toolbar_gating (data : LoaderData) (user : option User) :
  bar_shown (NoteRoute data user) = canDelete data || viewer_is_owner user data
  /\ delete_shown (NoteRoute data user) = canDelete data
  /\ edit_shown (NoteRoute data user) = bar_shown (NoteRoute data user)
  /\ toolbar (NoteRoute data user)
     = (if canDelete data || viewer_is_owner user data
        then Some ([TimeAgoLabel (timeAgo data ^^ " ago")]
                   ++ (if canDelete data
                       then [DeleteControl (DeleteNote (ln_id (note data)))] else [])
                   ++ [EditLink "edit"])
        else None).
Proof.
  unfold bar_shown, delete_shown, edit_shown, NoteRoute, viewer_is_owner.
  cbn [toolbar].
  destruct (canDelete data); cbn; [repeat split; reflexivity |].
  destruct user as [u |]; cbn; [| repeat split; reflexivity].
  destruct (String.eqb _ _); repeat split; reflexivity.
Qed.

(** C9.  The action never reads the route parameters: with any other
    parameters it behaves the same.  On a valid delete form naming [id],
    sent by a signed-in user, every note query it issues names [id], every
    note stored under another id is kept, and when the sender may delete the
    note under [id], that note is the one removed. *)
Theorem action_target_is_form_noteId
    (args : DataFunctionArgs) (w : World) (uid id : string) :
  requireUserId (request args) = Return uid ->
  valid_delete_submission (request args) id ->
  (forall p, action {| request := request args; params := p |} w = action args w)
  /\ (forall q, In q (issued_since w (snd (action args w))) ->
        q = NoteFindFirst id \/ q = NoteDelete id
        \/ exists n, notes (db w) !! id = Some n
                     /\ q = PermissionFindFirst (delete_where uid (ownerId n)))
  /\ (forall j, j <> id -> notes (db (snd (action args w))) !! j = notes (db w) !! j)
  /\ (forall n, notes (db w) !! id = Some n ->
        can_delete (db w) uid (ownerId n) ->
        notes (db (snd (action args w))) !! id = None).
Proof.
  intros Hu Hvalid. split; [reflexivity |].
  rewrite (action_run args w uid id Hu Hvalid).
  destruct (notes (db w) !! id) as [n |] eqn:Hn; cbv zeta.
  - destruct (Boolean _) eqn:Hb; cbn [fst snd].
    + erewrite issued_since_app
        with (qs := [NoteFindFirst id;
                     PermissionFindFirst (delete_where uid (ownerId n));
                     NoteDelete id])
        by (cbn; now rewrite <- !app_assoc).
      repeat split.
      * cbn [In]. intros q [<- | [<- | [<- | []]]]; eauto.
      * intros j Hj. cbn. now apply lookup_delete_ne.
      * intros n' _ _. cbn. apply lookup_delete_eq.
    + erewrite issued_since_app
        with (qs := [NoteFindFirst id;
                     PermissionFindFirst (delete_where uid (ownerId n))])
        by (cbn; now rewrite <- !app_assoc).
      repeat split.
      * cbn [In]. intros q [<- | [<- | []]]; eauto.
      * intros n' [= <-] Hc. apply gate_iff in Hc. congruence.
  - cbn [fst snd].
    erewrite issued_since_app with (qs := [NoteFindFirst id]) by reflexivity.
    repeat split.
    + cbn [In]. intros q [<- | []]; eauto.
    + intros n' [=].
Qed.

(** C10.  For a loaded note, the [description] entry of the page metadata
    is the constant "No content" when the content has at most 100
    characters; when it has more, it is the first 97 characters of the
    content followed by "...". *)
Theorem meta_description
    (d : LoaderData) (params : Params) (matches : list RouteMatch) :
  let c := ln_content (note d) in
  (String.length c <= 100 ->
     description (meta (Some d) params matches) = Some "No content")
  /\ (100 < String.length c ->
       description (meta (Some d) params matches) = Some (substring 0 97 c ^^ "...")
       /\ String.length (substring 0 97 c) = 97
       /\ exists rest, c = substring 0 97 c ^^ rest).
Proof.
  intros c. subst c. unfold meta. cbn [description String.eqb].
  split; intros Hlen.
  - destruct (Nat.ltb_spec 100 (String.length (ln_content (note d))));
      [lia | reflexivity].
  - destruct (Nat.ltb_spec 100 (String.length (ln_content (note d)))); [| lia].
    destruct (substring_prefix 97 (ln_content (note d))) as (rest & Heq & Hl);
      [lia |].
    split; [reflexivity |]. split; [assumption |]. now exists rest.
Qed.

End Guarantees.

(** ** The guarantees at work on the small installation *)

(** Kody views and deletes his own note. *)
Lemma delete_permission_iff_witness :
  (exists d w',
      loader (Demo.view_request (Some "u-kody") "n-kody") Demo.world
        = (Return (json (LoaderJson d) 200), w')
      /\ (canDelete d = true <-> can_delete Demo.store "u-kody" "u-kody"))
  /\ (fst (action (Demo.delete_request (Some "u-kody") "n-kody" "n-kody") Demo.world)
        = Return (redirect "/users/kody/notes")
      <-> can_delete Demo.store "u-kody" "u-kody")
  /\ (fst (action (Demo.delete_request (Some "u-kody") "n-kody" "n-kody") Demo.world)
        = Throw unauthorized
      <-> ~ can_delete Demo.store "u-kody" "u-kody").
Proof.
  apply (delete_permission_iff
           (Demo.view_request (Some "u-kody") "n-kody")
           (Demo.delete_request (Some "u-kody") "n-kody" "n-kody")
           Demo.world "u-kody" "n-kody" Demo.kody_note).
  - discriminate.
  - reflexivity.
  - reflexivity.
  - reflexivity.
  - reflexivity.
  - repeat split; reflexivity.
Defined.

(** Kody tries to delete Hannah's note. *)
Lemma action_forbidden_witness :
  exists w',
    action (Demo.delete_request (Some "u-kody") "n-hannah" "n-hannah") Demo.world
      = (Throw unauthorized, w')
    /\ status unauthorized = 403
    /\ db w' = Demo.store
    /\ notes (db w') !! "n-hannah" = Some Demo.hannah_note
    /\ issued_since Demo.world w'
       = [NoteFindFirst "n-hannah";
          PermissionFindFirst (delete_where "u-kody" "u-hannah")]
    /\ existsb is_delete (issued_since Demo.world w') = false.
Proof.
  apply (action_forbidden
           (Demo.delete_request (Some "u-kody") "n-hannah" "n-hannah")
           Demo.world "u-kody" "n-hannah" Demo.hannah_note).
  - reflexivity.
  - repeat split; reflexivity.
  - reflexivity.
  - intros Hc. apply gate_iff in Hc. vm_compute in Hc. discriminate.
Defined.

(** Root, who holds "any", deletes Hannah's note. *)
Lemma action_deletes_and_redirects_witness :
  exists w',
    action (Demo.delete_request (Some "u-root") "n-hannah" "n-hannah") Demo.world
      = (Return (redirect "/users/hannah/notes"), w')
    /\ notes (db w') = delete "n-hannah" (notes Demo.store)
    /\ notes (db w') !! "n-hannah" = None
    /\ (forall j, j <> "n-hannah" -> notes (db w') !! j = notes Demo.store !! j)
    /\ permissions (db w') = permissions Demo.store
    /\ issued_since Demo.world w'
       = [NoteFindFirst "n-hannah";
          PermissionFindFirst (delete_where "u-root" "u-hannah");
          NoteDelete "n-hannah"].
Proof.
  apply (action_deletes_and_redirects
           (Demo.delete_request (Some "u-root") "n-hannah" "n-hannah")
           Demo.world "u-root" "n-hannah" Demo.hannah_note).
  - reflexivity.
  - repeat split; reflexivity.
  - reflexivity.
  - apply gate_iff. reflexivity.
Defined.

(** A visitor who is not signed in views Kody's note. *)
Lemma loader_anonymous_witness :
  issued_since Demo.world (snd (loader (Demo.view_request None "n-kody") Demo.world))
    = [NoteFindUnique "n-kody"]
  /\ exists d,
       fst (loader (Demo.view_request None "n-kody") Demo.world)
         = Return (json (LoaderJson d) 200)
       /\ canDelete d = false.
Proof.
  destruct (loader_anonymous (Demo.view_request None "n-kody") Demo.world)
    as (Hq & _ & _ & Hd).
  - reflexivity.
  - split; [exact Hq |]. apply (Hd Demo.kody_note). reflexivity.
Defined.

(** Nobody has written a note "n-nobody". *)
Lemma missing_note_404_witness :
  status not_found = 404
  /\ (exists w', loader (Demo.view_request (Some "u-kody") "n-nobody") Demo.world
                   = (Throw not_found, w')
        /\ db w' = Demo.store
        /\ issued_since Demo.world w' = [NoteFindUnique "n-nobody"])
  /\ (exists w', action (Demo.delete_request (Some "u-kody") "n-nobody" "n-kody")
                        Demo.world
                   = (Throw not_found, w')
        /\ db w' = Demo.store
        /\ issued_since Demo.world w' = [NoteFindFirst "n-nobody"]).
Proof.
  apply (missing_note_404
           (Demo.view_request (Some "u-kody") "n-nobody")
           (Demo.delete_request (Some "u-kody") "n-nobody" "n-kody")
           Demo.world "u-kody" "n-nobody").
  - reflexivity.
  - reflexivity.
  - reflexivity.
  - repeat split; reflexivity.
Defined.

(** A validation round trip, a form without [noteId], a form with another
    [intent]. *)
Lemma action_rejects_bad_submission_witness :
  action Demo.validate_request Demo.world
    = (Return (json (ActionJson "idle" (parse (request Demo.validate_request))) 200),
       Demo.world)
  /\ (action Demo.missing_noteId_request Demo.world
      = (Return (json (ActionJson "error"
                         (parse (request Demo.missing_noteId_request))) 400),
         Demo.world)
      /\ In ("noteId", [invalid_type])
            (error (parse (request Demo.missing_noteId_request))))
  /\ (action Demo.wrong_intent_request Demo.world
      = (Return (json (ActionJson "error"
                         (parse (request Demo.wrong_intent_request))) 400),
         Demo.world)
      /\ In ("intent", [invalid_literal])
            (error (parse (request Demo.wrong_intent_request)))).
Proof.
  split; [| split].
  - apply (action_rejects_bad_submission Demo.validate_request Demo.world "u-kody");
      [reflexivity | discriminate].
  - destruct (action_rejects_bad_submission
                Demo.missing_noteId_request Demo.world "u-kody")
      as (_ & Hbad & Hmissing & _); [reflexivity |].
    destruct Hmissing as [Hv Hin]; [reflexivity |].
    split; [apply Hbad; [reflexivity | exact Hv] | exact Hin].
  - destruct (action_rejects_bad_submission
                Demo.wrong_intent_request Demo.world "u-kody")
      as (_ & Hbad & _ & Hwrong); [reflexivity |].
    destruct Hwrong as [Hv Hin]; [discriminate |].
    split; [apply Hbad; [reflexivity | exact Hv] | exact Hin].
Defined.

(** The answer Kody gets for Hannah's note. *)
Lemma forbidden_payload_witness :
  response_of (fst (action (Demo.delete_request (Some "u-kody") "n-hannah" "n-hannah")
                           Demo.world))
    = Some unauthorized
  /\ body unauthorized
     = ErrorJson "Unauthorized" "Unauthorized: requires permission delete:note"
  /\ forall p, (fun h => h p) <$> statusHandlers (status unauthorized)
               = Some "You are not allowed to do that".
Proof.
  split; [reflexivity |].
  destruct (forbidden_payload
              (Demo.delete_request (Some "u-kody") "n-hannah" "n-hannah")
              Demo.world "u-kody" unauthorized)
    as (_ & Hbody & _ & _ & Hshown).
  - reflexivity.
  - reflexivity.
  - reflexivity.
  - split; [exact Hbody | exact Hshown].
Defined.

(** C8, as stated, fails: before the "own" permission is granted, the
    loader gives Kody [canDelete = false] for his own note; the page then
    shows him the bar, as he is the owner, but without the delete control. *)
Lemma owner_without_permission_sees_no_delete :
  fst (loader (Demo.view_request (Some "u-kody") "n-kody")
              {| db := Demo.store_without_own; issued := [] |})
    = Return (json (LoaderJson Demo.kody_page) 200)
  /\ viewer_is_owner (Some Demo.kody) Demo.kody_page = true
  /\ bar_shown (@NoteRoute Demo.env Demo.kody_page (Some Demo.kody)) = true
  /\ delete_shown (@NoteRoute Demo.env Demo.kody_page (Some Demo.kody)) = false
  /\ delete_shown (@NoteRoute Demo.env Demo.kody_page (Some Demo.kody))
     <> (canDelete Demo.kody_page || viewer_is_owner (Some Demo.kody) Demo.kody_page).
Proof.
  repeat split; try reflexivity. discriminate.
Defined.

(** Root deletes Hannah's note from the page of Kody's note. *)
Lemma action_target_is_form_noteId_witness :
  params_noteId (params (Demo.delete_request (Some "u-root") "n-hannah" "n-kody"))
    = "n-kody"
  /\ notes (db (snd (action (Demo.delete_request (Some "u-root") "n-hannah" "n-kody")
                            Demo.world))) !! "n-hannah" = None
  /\ notes (db (snd (action (Demo.delete_request (Some "u-root") "n-hannah" "n-kody")
                            Demo.world))) !! "n-kody" = Some Demo.kody_note.
Proof.
  destruct (action_target_is_form_noteId
              (Demo.delete_request (Some "u-root") "n-hannah" "n-kody")
              Demo.world "u-root" "n-hannah")
    as (_ & _ & Hkept & Hgone).
  - reflexivity.
  - repeat split; reflexivity.
  - split; [reflexivity |]. split.
    + apply (Hgone Demo.hannah_note); [reflexivity | apply gate_iff; reflexivity].
    + rewrite (Hkept "n-kody"); [reflexivity | discriminate].
Defined.

(** A short note and a note of 101 characters. *)
Lemma meta_description_witness :
  description (meta (Some Demo.kody_page)
                    {| params_username := "kody"; params_noteId := "n-kody" |} [])
    = Some "No content"
  /\ description (meta (Some Demo.long_page)
                       {| params_username := "kody"; params_noteId := "n-long" |} [])
     = Some
  "0123456789012345678901234567890123456789012345678901234567890123456789012345678901234567890123456...".
Proof.
  split.
  - apply (meta_description Demo.kody_page). cbn. lia.
  - apply (meta_description Demo.long_page). cbn. lia.
Defined.

(** * Further properties of the route *)

(** ** The schema *)

(** The form that [DeleteNote] renders for a note is accepted by the schema
    of the action, whatever the id, and is parsed to that id. *)
Theorem DeleteNote_form_passes_schema (id : string) :
  DeleteFormSchema (form_payload (DeleteNote id))
    = inl {| form_intent := "delete-note"; noteId := id |}.
Proof.
  apply schema_accepts; unfold form_payload, DeleteNote; cbn.
  - apply lookup_insert_eq.
  - rewrite lookup_insert_ne by discriminate. apply lookup_insert_eq.
Qed.

(** The schema accepts a payload exactly when its [intent] is the string
    "delete-note" and its [noteId] is a string; the parsed value carries
    these two strings. *)
Theorem schema_accepts_iff (p : gmap string FieldValue) (v : DeleteForm) :
  DeleteFormSchema p = inl v
  <-> form_intent v = "delete-note"
      /\ p !! "intent" = Some (FString "delete-note")
      /\ p !! "noteId" = Some (FString (noteId v)).
Proof.
  split.
  - intros Hs. destruct (schema_accepted_inv p v Hs) as [Hi Hn].
    repeat split; try assumption.
    rewrite (schema_accepts p (noteId v) Hi Hn) in Hs. now injection Hs as <-.
  - intros (Hf & Hi & Hn). rewrite (schema_accepts p (noteId v) Hi Hn).
    destruct v as [i n]; cbn in *. now subst i.
Qed.

(** Fields the schema does not declare play no part: adding or removing one
    changes neither the verdict nor the parsed value nor the errors. *)
Theorem schema_ignores_other_fields
    (p : gmap string FieldValue) (k : string) (x : FieldValue) :
  k <> "intent" -> k <> "noteId" ->
  DeleteFormSchema (<[k := x]> p) = DeleteFormSchema p
  /\ DeleteFormSchema (delete k p) = DeleteFormSchema p.
Proof.
  intros Hi Hn. unfold DeleteFormSchema.
  now rewrite !lookup_insert_ne, !lookup_delete_ne by assumption.
Qed.

Lemma z_literal_cases (o : option FieldValue) :
  (z_literal "delete-note" o = inl "delete-note"
   /\ o = Some (FString "delete-note"))
  \/ (z_literal "delete-note" o = inr invalid_literal
      /\ o <> Some (FString "delete-note")).
Proof.
  destruct o as [[s |] |]; cbn; try (right; split; [reflexivity | discriminate]).
  destruct (String.eqb_spec s "delete-note") as [-> | Hs].
  - left. split; reflexivity.
  - right. split; [reflexivity | congruence].
Qed.

Lemma z_string_cases (o : option FieldValue) :
  (exists t, z_string o = inl t /\ o = Some (FString t))
  \/ (z_string o = inr invalid_type /\ forall id, o <> Some (FString id)).
Proof.
  destruct o as [[t |] |]; cbn; try (right; split; [reflexivity | discriminate]).
  left. exists t. split; reflexivity.
Qed.

(** A rejected payload is reported field by field: there is an error on
    [intent] exactly when that field is not the literal, an error on
    [noteId] exactly when that field is not a string, and no other entry;
    when both fields fail, both are reported, [intent] first. *)
Theorem schema_reports_every_failing_field
    (p : gmap string FieldValue) (e : list (string * list ZodIssue)) :
  DeleteFormSchema p = inr e ->
  (In ("intent", [invalid_literal]) e
     <-> p !! "intent" <> Some (FString "delete-note"))
  /\ (In ("noteId", [invalid_type]) e
        <-> forall id, p !! "noteId" <> Some (FString id))
  /\ (forall x, In x e ->
        x = ("intent", [invalid_literal]) \/ x = ("noteId", [invalid_type]))
  /\ (p !! "intent" <> Some (FString "delete-note") ->
      (forall id, p !! "noteId" <> Some (FString id)) ->
      e = [("intent", [invalid_literal]); ("noteId", [invalid_type])]).
Proof.
  unfold DeleteFormSchema.
  destruct (z_literal_cases (p !! "intent")) as [[-> Hi] | [-> Hi]];
    destruct (z_string_cases (p !! "noteId")) as [(t & -> & Hn) | [-> Hn]];
    cbn; intros [= <-].
  - (* intent accepted, noteId is not a string *)
    split; [| split; [| split]].
    + split; [intros [[=] | []] | intros Hc; contradiction].
    + split; [intros _; exact Hn | intros _; now left].
    + intros x [<- | []]. now right.
    + intros Hc. contradiction.
  - (* intent rejected, noteId is a string *)
    split; [| split; [| split]].
    + split; [intros _; exact Hi | intros _; now left].
    + split; [intros [[=] | []] | intros Hc; now destruct (Hc t)].
    + intros x [<- | []]. now left.
    + intros _ Hc. now destruct (Hc t).
  - (* both rejected *)
    split; [| split; [| split]].
    + split; [intros _; exact Hi | intros _; now left].
    + split; [intros _; exact Hn | intros _; right; now left].
    + intros x [<- | [<- | []]]; [now left | now right].
    + reflexivity.
Qed.

(** ** The handlers on every request *)

Lemma length_append (s t : string) :
  String.length (s ^^ t) = String.length s + String.length t.
Proof.
  induction s as [| c s IH]; [reflexivity |].
  change (S (String.length (s ^^ t)) = S (String.length s + String.length t)).
  now rewrite IH.
Qed.

Lemma Boolean_find_perm {A B} (f : A -> bool) (g : A -> B) (l l' : list A) :
  (forall x, In x l <-> In x l') ->
  Boolean (g <$> find f l) = Boolean (g <$> find f l').
Proof.
  intros Hin. apply eq_true_iff_eq. rewrite !Boolean_find.
  split; intros (x & Hx & Hf); exists x; split; try assumption; now apply Hin.
Qed.

Section Further.
Context `{RouteEnv}.

(** The three ways the action can go, by the session and the form. *)
Lemma action_cases (args : DataFunctionArgs) :
  (exists uid id, requireUserId (request args) = Return uid
                  /\ valid_delete_submission (request args) id)
  \/ (exists o, forall w, action args w = (o, w)).
Proof.
  destruct (requireUserId (request args)) as [uid | r | e] eqn:Hu.
  - destruct (String.eqb_spec (submissionIntent (request args)) "submit")
      as [Hi | Hi].
    + destruct (value (parse (request args))) as [v |] eqn:Hv.
      * left. exists uid, (noteId v). split; [reflexivity |].
        now apply parse_value_Some.
      * right. eexists. intros w. now apply (action_invalid args w uid).
    + right. eexists. intros w. now apply (action_idle args w uid).
  - right. exists (Throw r). intros w.
    unfold action, mbind, Async_bind, lift. now rewrite Hu.
  - right. exists (Raise e). intros w.
    unfold action, mbind, Async_bind, lift. now rewrite Hu.
Qed.

(** The loader in closed form. *)
Lemma loader_cases (args : DataFunctionArgs) (w : World) :
  let id := params_noteId (params args) in
  (notes (db w) !! id = None
   /\ loader args w = (Throw not_found, record (NoteFindUnique id) w))
  \/ (exists n d, notes (db w) !! id = Some n
        /\ (loader args w
              = (Return (json (LoaderJson d) 200), record (NoteFindUnique id) w)
            \/ exists uid,
                 loader args w
                   = (Return (json (LoaderJson d) 200),
                      record (PermissionFindFirst (delete_where uid (ownerId n)))
                             (record (NoteFindUnique id) w)))).
Proof.
  cbv zeta. destruct (notes (db w) !! params_noteId (params args)) as [n |] eqn:Hn.
  - right. rewrite (loader_run args w n Hn).
    destruct (getUserId (request args)) as [uid |].
    + destruct (String.eqb uid ""); eexists n, _; split; eauto.
    + eexists n, _; split; eauto.
  - left. split; [reflexivity | now apply loader_missing].
Qed.

(** The response of the loader depends on the store only through the row
    of the requested note and through what the permission query finds. *)
Lemma loader_fst_congr (args : DataFunctionArgs) (w w' : World) :
  notes (db w) !! params_noteId (params args)
    = notes (db w') !! params_noteId (params args) ->
  (forall q, Boolean (perm_id <$> find (permission_matches q) (permissions (db w)))
             = Boolean (perm_id <$> find (permission_matches q) (permissions (db w')))) ->
  fst (loader args w) = fst (loader args w').
Proof.
  intros Hn Hq.
  destruct (notes (db w) !! params_noteId (params args)) as [n |] eqn:Hw.
  - rewrite (loader_run args w n Hw), (loader_run args w' n (eq_sym Hn)).
    destruct (getUserId (request args)) as [uid |]; [| reflexivity].
    destruct (String.eqb uid ""); [reflexivity |]. cbn. now rewrite Hq.
  - now rewrite (loader_missing args w Hw), (loader_missing args w' (eq_sym Hn)).
Qed.

(** Likewise for the action. *)
Lemma action_fst_congr (args : DataFunctionArgs) (w w' : World) :
  notes (db w) = notes (db w') ->
  (forall q, Boolean (perm_id <$> find (permission_matches q) (permissions (db w)))
             = Boolean (perm_id <$> find (permission_matches q) (permissions (db w')))) ->
  fst (action args w) = fst (action args w').
Proof.
  intros Hn Hq.
  destruct (action_cases args) as [(uid & id & Hu & Hvalid) | (o & Ho)].
  - rewrite (action_run args w uid id Hu Hvalid),
            (action_run args w' uid id Hu Hvalid), <- Hn.
    destruct (notes (db w) !! id) as [n |]; [| reflexivity].
    cbv zeta. rewrite <- Hq. now destruct (Boolean _).
  - now rewrite !Ho.
Qed.

(** The action changes the store only by deleting the note a valid form
    names, for a signed-in sender who holds the permission, and then it
    answers with the redirect; on every other request (not signed in,
    validation round trip, rejected form, unknown note, no permission) the
    store is left exactly as it was.  The permission table is never
    written. *)
Theorem action_mutation_requires_permission (args : DataFunctionArgs) (w : World) :
  permissions (db (snd (action args w))) = permissions (db w)
  /\ (db (snd (action args w)) = db w
      \/ exists uid id n,
           requireUserId (request args) = Return uid
           /\ valid_delete_submission (request args) id
           /\ notes (db w) !! id = Some n
           /\ can_delete (db w) uid (ownerId n)
           /\ notes (db (snd (action args w))) = delete id (notes (db w))
           /\ fst (action args w)
              = Return (redirect ("/users/" ^^ username (owner n) ^^ "/notes"))).
Proof.
  destruct (action_cases args) as [(uid & id & Hu & Hvalid) | (o & Ho)].
  - rewrite (action_run args w uid id Hu Hvalid).
    destruct (notes (db w) !! id) as [n |] eqn:Hn; cbv zeta.
    + destruct (Boolean _) eqn:Hb; cbn [fst snd].
      * split; [reflexivity |]. right. exists uid, id, n.
        split; [exact Hu |]. split; [exact Hvalid |]. split; [exact Hn |].
        split; [now apply gate_iff |]. split; reflexivity.
      * split; [reflexivity | now left].
    + split; [reflexivity | now left].
  - rewrite Ho. split; [reflexivity | now left].
Qed.

(** The loader only reads: it leaves the store as it was, issues at most
    two queries, none of them a delete, and always answers, with status 200
    or 404. *)
Theorem loader_read_only (args : DataFunctionArgs) (w : World) :
  db (snd (loader args w)) = db w
  /\ length (issued_since w (snd (loader args w))) <= 2
  /\ existsb is_delete (issued_since w (snd (loader args w))) = false
  /\ exists r, response_of (fst (loader args w)) = Some r
               /\ (status r = 200 \/ status r = 404).
Proof.
  destruct (loader_cases args w)
    as [[Hn ->] | (n & d & Hn & [-> | (uid & ->)])]; cbn [fst snd].
  - erewrite issued_since_app by reflexivity.
    repeat split; cbn; eauto.
  - erewrite issued_since_app by reflexivity.
    repeat split; cbn; eauto.
  - erewrite issued_since_app by (cbn; now rewrite <- app_assoc).
    repeat split; cbn; eauto.
Qed.


(** What the page shows, by the two flags the component computes. *)
Lemma NoteRoute_controls (data : LoaderData) (user : option User) :
  controls (NoteRoute data user)
  = if canDelete data || viewer_is_owner user data
    then [TimeAgoLabel (timeAgo data ^^ " ago")]
         ++ (if canDelete data
             then [DeleteControl (DeleteNote (ln_id (note data)))] else [])
         ++ [EditLink "edit"]
    else [].
Proof.
  unfold controls, NoteRoute, viewer_is_owner. cbn [toolbar].
  now destruct (canDelete data || _).
Qed.

Lemma NoteRoute_delete_shown (data : LoaderData) (user : option User) :
  delete_shown (NoteRoute data user) = canDelete data.
Proof.
  unfold delete_shown, NoteRoute. cbn [toolbar].
  destruct (canDelete data); cbn; [reflexivity |].
  now destruct (match user with Some _ => _ | None => _ end).
Qed.

(** The page and the action agree.  For a signed-in viewer of an existing
    note, the page built from the loader's data shows the delete control
    exactly when the viewer may delete the note; the control it shows is the
    form for the viewed note, and posting that form deletes the note and
    redirects; when no control is shown, any valid delete form the viewer
    sends for that note is refused with the 403 response. *)
Theorem delete_control_agrees_with_action
    (view post : DataFunctionArgs) (w : World) (uid id : string) (n : Note)
    (user : option User) :
  uid <> "" ->
  notes (db w) !! id = Some n ->
  getUserId (request view) = Some uid ->
  params_noteId (params view) = id ->
  requireUserId (request post) = Return uid ->
  submissionIntent (request post) = "submit" ->
  exists d w1,
    loader view w = (Return (json (LoaderJson d) 200), w1)
    /\ (delete_shown (NoteRoute d user) = true
        <-> can_delete (db w) uid (ownerId n))
    /\ (forall f, In (DeleteControl f) (controls (NoteRoute d user)) ->
          f = DeleteNote id
          /\ (submissionPayload (request post) = form_payload f ->
              exists w2,
                action post w1
                  = (Return (redirect ("/users/" ^^ username (owner n) ^^ "/notes")),
                     w2)
                /\ notes (db w2) !! id = None))
    /\ (delete_shown (NoteRoute d user) = false ->
        valid_delete_submission (request post) id ->
        fst (action post w1) = Throw unauthorized).
Proof.
  intros Hne Hn Hget Hid Hreq Hint. subst id.
  rewrite (loader_run view w n Hn), Hget.
  destruct (String.eqb_spec uid "") as [-> | _]; [congruence |].
  eexists _, _. split; [reflexivity |].
  rewrite NoteRoute_controls, NoteRoute_delete_shown. cbn [canDelete note ln_id].
  pose proof (gate_iff (db w) uid (ownerId n)) as Hgate.
  split; [exact Hgate |]. split.
  - intros f Hin.
    destruct (Boolean _) eqn:Hb.
    + cbn in Hin. destruct Hin as [[=] | [[= <-] | [[=] | []]]].
      split; [reflexivity |]. intros Hp.
      assert (Hvalid : valid_delete_submission (request post)
                         (params_noteId (params view))).
      { split; [exact Hint |]. rewrite Hp. unfold form_payload, DeleteNote; cbn.
        split; [apply lookup_insert_eq |].
        rewrite lookup_insert_ne by discriminate. apply lookup_insert_eq. }
      rewrite (action_run post _ uid _ Hreq Hvalid). cbn [db record].
      rewrite Hn. cbv zeta. rewrite Hb.
      eexists. split; [reflexivity |]. cbn. apply lookup_delete_eq.
    + exfalso. cbn [orb] in Hin.
      destruct (viewer_is_owner user _); cbn in Hin; [| exact Hin].
      destruct Hin as [[=] | [[=] | []]].
  - intros Hb Hvalid.
    rewrite (action_run post _ uid _ Hreq Hvalid). cbn [db record].
    rewrite Hn. cbv zeta. now rewrite Hb.
Qed.

(** Sending the same delete form a second time finds nothing: the first
    action removes the note and redirects, the second one throws the 404
    response and leaves the store as the first one left it. *)
Theorem second_delete_is_not_found
    (args : DataFunctionArgs) (w : World) (uid id : string) (n : Note) :
  requireUserId (request args) = Return uid ->
  valid_delete_submission (request args) id ->
  notes (db w) !! id = Some n ->
  can_delete (db w) uid (ownerId n) ->
  exists w1 w2,
    action args w
      = (Return (redirect ("/users/" ^^ username (owner n) ^^ "/notes")), w1)
    /\ action args w1 = (Throw not_found, w2)
    /\ db w2 = db w1.
Proof.
  intros Hu Hvalid Hn Hc. apply gate_iff in Hc.
  rewrite (action_run args w uid id Hu Hvalid), Hn. cbv zeta. rewrite Hc.
  eexists _, _. split; [reflexivity |].
  rewrite (action_run args _ uid id Hu Hvalid). cbn [db record notes].
  rewrite lookup_delete_eq. split; reflexivity.
Qed.

(** After a note was deleted its page answers 404, and the page of every
    other note answers exactly as it did before. *)
Theorem delete_then_view
    (post view : DataFunctionArgs) (w : World) (uid id : string) (n : Note) :
  requireUserId (request post) = Return uid ->
  valid_delete_submission (request post) id ->
  notes (db w) !! id = Some n ->
  can_delete (db w) uid (ownerId n) ->
  exists w1,
    action post w
      = (Return (redirect ("/users/" ^^ username (owner n) ^^ "/notes")), w1)
    /\ (params_noteId (params view) = id ->
        fst (loader view w1) = Throw not_found)
    /\ (params_noteId (params view) <> id ->
        fst (loader view w1) = fst (loader view w)).
Proof.
  intros Hu Hvalid Hn Hc. apply gate_iff in Hc.
  rewrite (action_run post w uid id Hu Hvalid), Hn. cbv zeta. rewrite Hc.
  eexists. split; [reflexivity |]. split.
  - intros Hid. rewrite loader_missing; [reflexivity |].
    cbn. rewrite Hid. apply lookup_delete_eq.
  - intros Hid. apply loader_fst_congr; cbn; [| reflexivity].
    apply lookup_delete_ne. congruence.
Qed.

(** Both handlers only ask whether some permission row matches, so the
    order of the permission table does not matter: two stores with the same
    notes and the same rows in another order get the same responses. *)
Theorem responses_ignore_table_order
    (view post : DataFunctionArgs) (w w' : World) :
  notes (db w) = notes (db w') ->
  Permutation (permissions (db w)) (permissions (db w')) ->
  fst (loader view w) = fst (loader view w')
  /\ fst (action post w) = fst (action post w').
Proof.
  intros Hn Hp.
  assert (Hq : forall q,
             Boolean (perm_id <$> find (permission_matches q) (permissions (db w)))
             = Boolean (perm_id <$> find (permission_matches q) (permissions (db w')))).
  { intros q. apply Boolean_find_perm. intros x. split; apply Permutation_in;
      [assumption | now symmetry]. }
  split; [apply loader_fst_congr | apply action_fst_congr]; try assumption.
  now rewrite Hn.
Qed.

(** There are no denying rows: when rows are added to the permission table
    and the notes stay the same, a delete that was allowed is still allowed
    and answers with the same redirect, and a page that offered to delete
    still does. *)
Theorem more_permissions_never_revoke
    (view post : DataFunctionArgs) (w w' : World) :
  notes (db w) = notes (db w') ->
  incl (permissions (db w)) (permissions (db w')) ->
  (forall url, fst (action post w) = Return (redirect url) ->
               fst (action post w') = Return (redirect url))
  /\ (forall d, fst (loader view w) = Return (json (LoaderJson d) 200) ->
                canDelete d = true ->
                exists d', fst (loader view w') = Return (json (LoaderJson d') 200)
                           /\ canDelete d' = true /\ note d' = note d).
Proof.
  intros Hn Hincl.
  assert (Hq : forall q,
             Boolean (perm_id <$> find (permission_matches q) (permissions (db w)))
               = true ->
             Boolean (perm_id <$> find (permission_matches q) (permissions (db w')))
               = true).
  { intros q. rewrite !Boolean_find. intros (x & Hx & Hf). exists x.
    split; [now apply Hincl | assumption]. }
  split.
  - intros url.
    destruct (action_cases post) as [(uid & id & Hu & Hvalid) | (o & Ho)].
    + rewrite (action_run post w uid id Hu Hvalid),
              (action_run post w' uid id Hu Hvalid), <- Hn.
      destruct (notes (db w) !! id) as [n |]; [| discriminate].
      cbv zeta. destruct (Boolean _) eqn:Hb; [| discriminate].
      now rewrite (Hq _ Hb).
    + now rewrite !Ho.
  - intros d.
    destruct (notes (db w) !! params_noteId (params view)) as [n |] eqn:Hw.
    + assert (Hw' : notes (db w') !! params_noteId (params view) = Some n)
        by now rewrite <- Hn.
      rewrite (loader_run view w n Hw), (loader_run view w' n Hw').
      destruct (getUserId (request view)) as [uid |].
      * destruct (String.eqb uid ""); cbn [fst].
        -- intros [= <-]. discriminate.
        -- intros [= <-]. cbn [canDelete]. intros Hb.
           eexists. split; [reflexivity |]. split; [| reflexivity].
           cbn [canDelete]. now apply Hq.
      * cbn [fst]. intros [= <-]. discriminate.
    + rewrite (loader_missing view w Hw). discriminate.
Qed.

(** A visitor who is not signed in gets the note without any toolbar:
    neither the delete nor the edit control is on the page. *)
Theorem anonymous_page_has_no_toolbar
    (args : DataFunctionArgs) (w : World) (n : Note) :
  getUserId (request args) = None ->
  notes (db w) !! params_noteId (params args) = Some n ->
  exists d,
    fst (loader args w) = Return (json (LoaderJson d) 200)
    /\ toolbar (NoteRoute d None) = None
    /\ controls (NoteRoute d None) = []
    /\ heading (NoteRoute d None) = title n
    /\ paragraph (NoteRoute d None) = content n
    /\ length (thumbnails (NoteRoute d None)) = length (images n).
Proof.
  intros Hget Hn. rewrite (loader_run args w n Hn), Hget.
  eexists. split; [reflexivity |]. cbn.
  repeat split. now rewrite length_map.
Qed.

(** Every response the route throws has a handler in the error boundary:
    the loader only throws 404, and the action of a signed-in sender only
    throws 403 or 404. *)
Theorem thrown_responses_have_a_handler
    (view post : DataFunctionArgs) (w : World) (uid : string) (r : Response) :
  requireUserId (request post) = Return uid ->
  fst (loader view w) = Throw r \/ fst (action post w) = Throw r ->
  (status r = 403 \/ status r = 404)
  /\ (fst (loader view w) = Throw r -> status r = 404)
  /\ exists h, statusHandlers (status r) = Some h.
Proof.
  intros Hu Hr.
  assert (Hl : fst (loader view w) = Throw r -> r = not_found).
  { destruct (loader_cases view w)
      as [[_ ->] | (n & d & _ & [-> | (u & ->)])]; cbn [fst];
      intros [=]; congruence. }
  assert (Ha : fst (action post w) = Throw r -> r = not_found \/ r = unauthorized).
  { destruct (String.eqb_spec (submissionIntent (request post)) "submit")
      as [Hi | Hi].
    - destruct (value (parse (request post))) as [v |] eqn:Hv.
      + pose proof (parse_value_Some _ v Hi Hv) as Hvalid.
        rewrite (action_run post w uid _ Hu Hvalid).
        destruct (notes (db w) !! noteId v) as [n |]; cbv zeta.
        * destruct (Boolean _); cbn [fst]; intros [=]; auto.
        * cbn [fst]. intros [=]; auto.
      + rewrite (action_invalid post w uid Hu Hi Hv). discriminate.
    - rewrite (action_idle post w uid Hu Hi). discriminate. }
  split; [| split].
  - destruct Hr as [Hr | Hr];
      [rewrite (Hl Hr); now right
      | destruct (Ha Hr) as [-> | ->]; [now right | now left]].
  - intros Hr'. now rewrite (Hl Hr').
  - destruct Hr as [Hr | Hr];
      [rewrite (Hl Hr) | destruct (Ha Hr) as [-> | ->]]; cbn; eauto.
Qed.

End Further.

(** ** The page metadata *)

Lemma length_substring_le (n : nat) (s : string) :
  String.length (substring 0 n s) <= n.
Proof.
  revert s. induction n as [| n IH]; intros [| c s]; cbn; try lia.
  specialize (IH s). lia.
Qed.

Lemma find_none_app {A} (f : A -> bool) (pre rest : list A) :
  (forall x, In x pre -> f x = false) ->
  find f (pre ++ rest) = find f rest.
Proof.
  induction pre as [| a pre IH]; intros Hpre; [reflexivity |].
  cbn. rewrite (Hpre a (in_eq _ _)). apply IH.
  intros x Hx. apply Hpre. now right.
Qed.

Lemma meta_find (data : option LoaderData) (params : Params)
    (ms ms' : list RouteMatch) :
  find (fun m => String.eqb (match_id m) "routes/users+/$username_+/notes") ms
    = find (fun m => String.eqb (match_id m) "routes/users+/$username_+/notes") ms' ->
  meta data params ms = meta data params ms'.
Proof. unfold meta. now intros ->. Qed.

(** The metadata always consist of a title and a description, in that
    order, and the description never has more than 100 characters; when the
    loader gave no data the description is "No content". *)
Theorem meta_shape_and_bound
    (data : option LoaderData) (params : Params) (matches : list RouteMatch) :
  (exists t c, meta data params matches = [MetaTitle t; MetaName "description" c]
               /\ String.length c <= 100)
  /\ description (meta None params matches) = Some "No content".
Proof.
  split; [| reflexivity].
  unfold meta. eexists _, _. split; [reflexivity |].
  destruct data as [d |]; [| cbn; lia].
  destruct (100 <? String.length (ln_content (note d)))%nat; [| cbn; lia].
  rewrite length_append. pose proof (length_substring_le 97 (ln_content (note d))).
  cbn [String.length]. lia.
Qed.

(** The display name of the title comes from the first match of the notes
    route and from no other match: matches of other routes before it and
    everything after it are ignored, and without such a match the title
    falls back to the [username] route parameter. *)
Theorem meta_uses_first_notes_match
    (data : option LoaderData) (params : Params)
    (pre post : list RouteMatch) (m : RouteMatch) :
  (forall x, In x pre -> match_id x <> "routes/users+/$username_+/notes") ->
  (exists c,
     meta data params pre
     = [MetaTitle (match data with
                   | Some d => ln_title (note d)
                   | None => "Note"
                   end ^^ " | " ^^ params_username params ^^ "'s Notes | Epic Notes");
        MetaName "description" c])
  /\ (match_id m = "routes/users+/$username_+/notes" ->
      meta data params (pre ++ m :: post) = meta data params [m]).
Proof.
  intros Hpre.
  assert (Hf : forall x, In x pre ->
             String.eqb (match_id x) "routes/users+/$username_+/notes" = false).
  { intros x Hx. apply String.eqb_neq. now apply Hpre. }
  split.
  - rewrite (meta_find data params pre []).
    + unfold meta. cbn [find]. eexists. reflexivity.
    + rewrite <- (app_nil_r pre) at 1. now rewrite find_none_app.
  - intros Hm. apply meta_find. rewrite find_none_app by assumption.
    cbn [find]. now rewrite Hm.
Qed.

(** ** The further properties on the small installation *)

Lemma schema_ignores_other_fields_witness :
  DeleteFormSchema Demo.extra_field_payload
    = DeleteFormSchema (Demo.delete_payload "n-kody")
  /\ DeleteFormSchema (delete "redirectTo" (Demo.delete_payload "n-kody"))
     = DeleteFormSchema (Demo.delete_payload "n-kody").
Proof.
  apply (schema_ignores_other_fields
           (Demo.delete_payload "n-kody") "redirectTo" (FString "/"));
    discriminate.
Defined.

(** An empty form. *)
Lemma schema_reports_every_failing_field_witness :
  DeleteFormSchema ∅
    = inr [("intent", [invalid_literal]); ("noteId", [invalid_type])]
  /\ In ("intent", [invalid_literal])
        [("intent", [invalid_literal]); ("noteId", [invalid_type])]
  /\ In ("noteId", [invalid_type])
        [("intent", [invalid_literal]); ("noteId", [invalid_type])].
Proof.
  split; [reflexivity |].
  destruct (schema_reports_every_failing_field
              ∅ [("intent", [invalid_literal]); ("noteId", [invalid_type])])
    as (Hi & Hn & _ & _).
  - reflexivity.
  - split; [apply Hi | apply Hn]; discriminate.
Defined.


(** Kody opens the page of his note and presses its delete button. *)
Lemma delete_control_agrees_with_action_witness :
  exists d w1,
    loader (Demo.view_request (Some "u-kody") "n-kody") Demo.world
      = (Return (json (LoaderJson d) 200), w1)
    /\ delete_shown (@NoteRoute Demo.env d (Some Demo.kody)) = true
    /\ exists w2,
         action (Demo.press_delete (Some "u-kody") "n-kody") w1
           = (Return (redirect "/users/kody/notes"), w2)
         /\ notes (db w2) !! "n-kody" = None.
Proof.
  destruct (delete_control_agrees_with_action
              (Demo.view_request (Some "u-kody") "n-kody")
              (Demo.press_delete (Some "u-kody") "n-kody")
              Demo.world "u-kody" "n-kody" Demo.kody_note (Some Demo.kody))
    as (d & w1 & Hl & Hshown & Hform & _).
  - discriminate.
  - reflexivity.
  - reflexivity.
  - reflexivity.
  - reflexivity.
  - reflexivity.
  - exists d, w1. split; [exact Hl |].
    assert (Hs : delete_shown (@NoteRoute Demo.env d (Some Demo.kody)) = true)
      by (apply Hshown, gate_iff; reflexivity).
    split; [exact Hs |].
    apply (Hform (DeleteNote "n-kody")); [| reflexivity].
    rewrite NoteRoute_controls.
    rewrite NoteRoute_delete_shown in Hs. rewrite Hs. cbn. right. left.
    injection Hl as <- _. reflexivity.
Defined.

(** Root deletes Hannah's note, twice. *)
Lemma second_delete_is_not_found_witness :
  exists w1 w2,
    action (Demo.delete_request (Some "u-root") "n-hannah" "n-hannah") Demo.world
      = (Return (redirect "/users/hannah/notes"), w1)
    /\ action (Demo.delete_request (Some "u-root") "n-hannah" "n-hannah") w1
       = (Throw not_found, w2)
    /\ db w2 = db w1.
Proof.
  apply (second_delete_is_not_found
           (Demo.delete_request (Some "u-root") "n-hannah" "n-hannah")
           Demo.world "u-root" "n-hannah" Demo.hannah_note).
  - reflexivity.
  - repeat split; reflexivity.
  - reflexivity.
  - apply gate_iff. reflexivity.
Defined.

(** Root deletes Hannah's note; a visitor then opens Kody's. *)
Lemma delete_then_view_witness :
  exists w1,
    action (Demo.delete_request (Some "u-root") "n-hannah" "n-hannah") Demo.world
      = (Return (redirect "/users/hannah/notes"), w1)
    /\ fst (loader (Demo.view_request None "n-hannah") w1) = Throw not_found
    /\ fst (loader (Demo.view_request None "n-kody") w1)
       = fst (loader (Demo.view_request None "n-kody") Demo.world).
Proof.
  destruct (delete_then_view
              (Demo.delete_request (Some "u-root") "n-hannah" "n-hannah")
              (Demo.view_request None "n-kody")
              Demo.world "u-root" "n-hannah" Demo.hannah_note)
    as (w1 & Ha & _ & Hother).
  - reflexivity.
  - repeat split; reflexivity.
  - reflexivity.
  - apply gate_iff. reflexivity.
  - exists w1. split; [exact Ha |]. split.
    + injection Ha as <-. reflexivity.
    + apply Hother. discriminate.
Defined.

Lemma responses_ignore_table_order_witness :
  fst (loader (Demo.view_request (Some "u-kody") "n-kody") Demo.world)
    = fst (loader (Demo.view_request (Some "u-kody") "n-kody")
                  {| db := Demo.store_shuffled; issued := [] |})
  /\ fst (action (Demo.delete_request (Some "u-kody") "n-kody" "n-kody") Demo.world)
     = fst (action (Demo.delete_request (Some "u-kody") "n-kody" "n-kody")
                   {| db := Demo.store_shuffled; issued := [] |}).
Proof.
  apply (responses_ignore_table_order
           (Demo.view_request (Some "u-kody") "n-kody")
           (Demo.delete_request (Some "u-kody") "n-kody" "n-kody")
           Demo.world {| db := Demo.store_shuffled; issued := [] |}).
  - reflexivity.
  - symmetry.
    apply (Permutation_cons_append [Demo.update_any; Demo.delete_own] Demo.delete_any).
Defined.

(** Granting "own" to the users: Kody's delete goes through as before it
    did for Root. *)
Lemma more_permissions_never_revoke_witness :
  fst (action (Demo.delete_request (Some "u-root") "n-kody" "n-kody")
              {| db := Demo.store_more_rows; issued := [] |})
    = Return (redirect "/users/kody/notes").
Proof.
  destruct (more_permissions_never_revoke
              (Demo.view_request (Some "u-root") "n-kody")
              (Demo.delete_request (Some "u-root") "n-kody" "n-kody")
              {| db := Demo.store_without_own; issued := [] |}
              {| db := Demo.store_more_rows; issued := [] |})
    as [Hact _].
  - reflexivity.
  - apply incl_tl, incl_refl.
  - apply Hact. reflexivity.
Defined.

Lemma anonymous_page_has_no_toolbar_witness :
  exists d,
    fst (loader (Demo.view_request None "n-kody") Demo.world)
      = Return (json (LoaderJson d) 200)
    /\ toolbar (@NoteRoute Demo.env d None) = None
    /\ controls (@NoteRoute Demo.env d None) = []
    /\ heading (@NoteRoute Demo.env d None) = "Koalas"
    /\ paragraph (@NoteRoute Demo.env d None) = "Koalas sleep a lot."
    /\ length (thumbnails (@NoteRoute Demo.env d None)) = 1.
Proof.
  apply (anonymous_page_has_no_toolbar
           (Demo.view_request None "n-kody") Demo.world Demo.kody_note);
    reflexivity.
Defined.

(** The 403 Kody gets for Hannah's note. *)
Lemma thrown_responses_have_a_handler_witness :
  (status unauthorized = 403 \/ status unauthorized = 404)
  /\ exists h, statusHandlers (status unauthorized) = Some h.
Proof.
  destruct (thrown_responses_have_a_handler
              (Demo.view_request (Some "u-kody") "n-hannah")
              (Demo.delete_request (Some "u-kody") "n-hannah" "n-hannah")
              Demo.world "u-kody" unauthorized)
    as (Hs & _ & Hh).
  - reflexivity.
  - right. reflexivity.
  - split; [exact Hs | exact Hh].
Defined.

(** The root match comes before the match of the notes route. *)
Lemma meta_uses_first_notes_match_witness :
  meta (Some Demo.kody_page)
       {| params_username := "kody"; params_noteId := "n-kody" |}
       [Demo.root_match; Demo.notes_match; Demo.root_match]
  = [MetaTitle "Koalas | Kody's Notes | Epic Notes";
     MetaName "description" "No content"].
Proof.
  destruct (meta_uses_first_notes_match
              (Some Demo.kody_page)
              {| params_username := "kody"; params_noteId := "n-kody" |}
              [Demo.root_match] [Demo.root_match] Demo.notes_match)
    as [_ Hm].
  - intros x [<- | []]. discriminate.
  - etransitivity; [exact (Hm eq_refl) | reflexivity].
Defined.
